(** * The Mean Learner widget (Orange/widgets/regression/owmean.py)

    A shallow embedding of the class [OWMean]: its declared ports, its
    fields, and the methods [__init__], [set_data] and [apply], followed
    by the properties of the widget's behaviour.

    The widget is glue between a GUI framework and a modelling library.
    Both live outside the file: the library ([Orange.data],
    [Orange.regression.mean]) is an interface here, the class [Orange];
    the two framework calls the widget makes ([self.error], [self.send])
    are modelled by their effect on the widget state. *)

From stdpp Require Import base strings list gmap.

Local Open Scope string_scope.
Local Open Scope list_scope.

(* ------------------------------------------------------------------ *)
(** * Declared ports *)
(* ------------------------------------------------------------------ *)

(** The classes that appear as the type of a port.  [Table],
    [MeanLearner] and [MeanModel] are the ones the file imports and
    names; [OtherClass] stands for a class named only by an inherited
    declaration. *)
Inductive SignalType : Type :=
  | TableT
  | MeanLearnerT
  | MeanModelT
  | OtherClass (qualname : string).

(** An entry of [inputs]: (name, type, handler). *)
Definition InputPort : Type := string * SignalType * string.

(** An entry of [outputs]: (name, type). *)
Definition OutputPort : Type := string * SignalType.

(** [LEARNER = MeanLearner] *)
Definition LEARNER_class : SignalType := MeanLearnerT.

(** The literal part of [inputs], written in the class body. *)
Definition own_inputs : list InputPort := [("Data", TableT, "set_data")].

(** [inputs = [("Data", Table, "set_data")] + OWProvidesLearner.inputs];
    the inherited list is declared by the mixin, outside this file. *)
Definition inputs (OWProvidesLearner_inputs : list InputPort) : list InputPort :=
  own_inputs ++ OWProvidesLearner_inputs.

(** [outputs = [("Learner", LEARNER), ("Predictor", MeanModel)]] *)
Definition outputs : list OutputPort :=
  [("Learner", LEARNER_class); ("Predictor", MeanModelT)].

(* ------------------------------------------------------------------ *)
(** * The modelling library, as an interface *)
(* ------------------------------------------------------------------ *)

(** A [MeanLearner] instance.  [lid] is the identity of the Python
    object: two learners built by two constructor calls are two objects
    even when all their attributes agree. *)
Record MeanLearner (Preprocess : Type) : Type := mkLearner {
  lid : nat;
  lpreprocessors : option (list Preprocess);
  lname : string
}.
Arguments mkLearner {Preprocess} _ _ _.
Arguments lid {Preprocess} _.
Arguments lpreprocessors {Preprocess} _.
Arguments lname {Preprocess} _.

(** A [MeanModel] instance: its [name] attribute and what was fitted. *)
Record MeanModel (Fit : Type) : Type := mkModel {
  mname : string;
  mfit : Fit
}.
Arguments mkModel {Fit} _ _.
Arguments mname {Fit} _.
Arguments mfit {Fit} _.

(** [learner.name = v] *)
Definition set_lname {P} (l : MeanLearner P) (v : string) : MeanLearner P :=
  mkLearner (lid l) (lpreprocessors l) v.

(** [predictor.name = v] *)
Definition set_mname {F} (m : MeanModel F) (v : string) : MeanModel F :=
  mkModel v (mfit m).

(** What the widget uses of [Orange.data] and [Orange.regression.mean].
    [learner_call] is [learner(data)]; it is taken to return a model. *)
Class Orange : Type := {
  Table : Type;
  Domain : Type;
  Preprocess : Type;
  Fit : Type;
  domain : Table → Domain;
  default_learner_name : string;
  check_learner_adequacy : MeanLearner Preprocess → Domain → bool;
  learner_adequacy_err_msg : MeanLearner Preprocess → string;
  learner_call : MeanLearner Preprocess → Table → MeanModel Fit
}.

(* ------------------------------------------------------------------ *)
(** * The widget *)
(* ------------------------------------------------------------------ *)

Abbreviation Learner := (MeanLearner Preprocess).
Abbreviation Model := (MeanModel Fit).

Section Widget.
Context `{O : Orange}.

(** A Python value passed to [self.send]. *)
Inductive value : Type :=
  | VNone
  | VLearner (l : Learner)
  | VModel (m : Model).

(** The widget object.  [data], [preprocessors] and [learner_name] are
    the attributes of the source.  [widget_errors] is the panel's error
    annotations by id, [sent] the messages passed to [self.send], oldest
    first, and [next_id] the identity the next constructed learner
    gets. *)
Record OWMean : Type := mkOWMean {
  data : option Table;
  preprocessors : option (list Preprocess);
  learner_name : string;
  widget_errors : gmap Z string;
  sent : list (string * value);
  next_id : nat
}.

(** ** A state monad over the widget object *)

Definition M (A : Type) : Type := OWMean → A * OWMean.

#[local] Instance M_ret : MRet M := λ A (a : A) self, (a, self).
#[local] Instance M_bind : MBind M :=
  λ A B (f : A → M B) (m : M A) self, let '(a, self') := m self in f a self'.

Definition get_self : M OWMean := λ self, (self, self).

(** The state a method call leaves the widget in. *)
Definition exec {A} (m : M A) (self : OWMean) : OWMean := (m self).2.

(** ** The framework calls *)

(** Modelled from the spec: [OWWidget.error] belongs to the framework,
    outside this file ("an error annotation is raised on the panel").
    [self.error(id)] removes the annotation [id]; [self.error(id, text)]
    sets it. *)
Definition error (id : Z) (text : option string) : M unit := λ self,
  let errs := match text with
              | None => delete id (widget_errors self)
              | Some t => <[id := t]> (widget_errors self)
              end in
  (tt, mkOWMean (data self) (preprocessors self) (learner_name self)
                errs (sent self) (next_id self)).

(** Modelled from the spec: [OWWidget.send] belongs to the framework
    (the outputs "publish" objects).  [self.send(channel, v)] passes [v]
    on [channel]; the log keeps every message in order. *)
Definition send (channel : string) (v : value) : M unit := λ self,
  (tt, mkOWMean (data self) (preprocessors self) (learner_name self)
                (widget_errors self) (sent self ++ [(channel, v)]) (next_id self)).

(** [self.LEARNER(preprocessors=p)]: a new object. *)
Definition LEARNER (p : option (list Preprocess)) : M Learner := λ self,
  (mkLearner (next_id self) p default_learner_name,
   mkOWMean (data self) (preprocessors self) (learner_name self)
            (widget_errors self) (sent self) (S (next_id self))).

(** ** Methods *)

(** [self.data = d] *)
Definition assign_data (d : option Table) : M unit := λ self,
  (tt, mkOWMean d (preprocessors self) (learner_name self)
                (widget_errors self) (sent self) (next_id self)).

Definition apply : M unit :=
  self ← get_self;
  learner ← LEARNER (preprocessors self);
  let learner := set_lname learner (learner_name self) in
  predictor ←
    match data self with
    | Some d =>
        error 0 None;;
        if negb (check_learner_adequacy learner (domain d)) then
          error 0 (Some (learner_adequacy_err_msg learner));;
          mret VNone
        else
          let predictor := learner_call learner d in
          let predictor := set_mname predictor (lname learner) in
          mret (VModel predictor)
    | None => mret VNone
    end;
  send "Learner" (VLearner learner);;
  send "Predictor" predictor.

Definition set_data (d : option Table) : M unit :=
  assign_data d;;
  match d with
  | Some _ => apply
  | None => mret tt
  end.

(** Modelled from the spec: [settings.Setting] belongs to the framework
    ("a settings-backed name field").
    [learner_name = settings.Setting("Mean Learner")] is the value saved
    with the workflow when there is one, otherwise the declared default. *)
Definition Setting (default : string) (stored : option string) : string :=
  match stored with
  | Some v => v
  | None => default
  end.

(** The object as [__init__] has it just before its last statement:
    [self.data = None], [self.preprocessors = None], nothing annotated,
    nothing sent.  Identities count the learners this widget builds. *)
Definition blank (stored : option string) : OWMean :=
  mkOWMean None None (Setting "Mean Learner" stored) ∅ [] 0.

(** [__init__], which ends with [self.apply()]. *)
Definition OWMean_init (stored : option string) : OWMean :=
  exec apply (blank stored).

(** [send_report]: the items passed to [self.report_items]. *)
Definition send_report (self : OWMean) : list (string * string) :=
  [("Name", learner_name self)].

(** ** Observations *)

(** The learner that [apply] builds when called on [self]: the result
    of its first two statements. *)
Definition built_learner (self : OWMean) : Learner :=
  set_lname (LEARNER (preprocessors self) self).1 (learner_name self).

(** [predictor = learner(self.data)] followed by
    [predictor.name = learner.name]: the model of an adequate table. *)
Definition fitted (l : Learner) (d : Table) : Model :=
  set_mname (learner_call l d) (lname l).

(** The value of the local [predictor] when [apply] reaches its two
    [send] statements. *)
Definition applied_predictor (self : OWMean) : value :=
  match data self with
  | None => VNone
  | Some d =>
      if check_learner_adequacy (built_learner self) (domain d)
      then VModel (fitted (built_learner self) d)
      else VNone
  end.

(** The value last sent on [channel], if any was. *)
Fixpoint last_sent (channel : string) (log : list (string * value)) : option value :=
  match log with
  | [] => None
  | (c, v) :: rest =>
      match last_sent channel rest with
      | Some w => Some w
      | None => if decide (c = channel) then Some v else None
      end
  end.

(** The identities of the learners in a log of messages. *)
Fixpoint learner_ids (log : list (string * value)) : list nat :=
  match log with
  | [] => []
  | (_, VLearner l) :: rest => lid l :: learner_ids rest
  | _ :: rest => learner_ids rest
  end.

(** The messages a call sends: what it appends to the log. *)
Definition emitted {A} (m : M A) (self : OWMean) : list (string * value) :=
  drop (length (sent self)) (sent (exec m self)).

(** Every learner this widget has sent was built before now. *)
Definition ids_fresh (self : OWMean) : bool :=
  forallb (λ i, bool_decide (i < next_id self)) (learner_ids (sent self)).

(** A published predictor that is not [None] was fitted by the learner
    published with it, on a table that learner accepts, and the widget
    still holds that table or holds none. *)
Definition predictor_justified (self : OWMean) : Prop :=
  ∀ m, last_sent "Predictor" (sent self) = Some (VModel m) →
    ∃ l d, last_sent "Learner" (sent self) = Some (VLearner l) ∧
           check_learner_adequacy l (domain d) = true ∧
           m = fitted l d ∧
           (data self = Some d ∨ data self = None).

(** ** Histories *)

(** What can happen to a constructed widget: the "Data" signal arrives
    ([set_data]), "Apply" is pressed ([apply]), or the user edits the
    line edit bound to [learner_name]. *)
Inductive event : Type :=
  | SetData (d : option Table)
  | Apply
  | EditName (v : string).

Definition edit_name (v : string) : M unit := λ self,
  (tt, mkOWMean (data self) (preprocessors self) v
                (widget_errors self) (sent self) (next_id self)).

Definition handle (e : event) : M unit :=
  match e with
  | SetData d => set_data d
  | Apply => apply
  | EditName v => edit_name v
  end.

Fixpoint run (es : list event) (self : OWMean) : OWMean :=
  match es with
  | [] => self
  | e :: es' => run es' (exec (handle e) self)
  end.

(** No line-edit event: a sequence of [set_data] and [apply] calls. *)
Definition calls_only (es : list event) : bool :=
  forallb (λ e, match e with EditName _ => false | _ => true end) es.

Definition reachable (self : OWMean) : Prop :=
  ∃ stored es, self = run es (OWMean_init stored).

(** The script under [if __name__ == "__main__"], up to the point where
    the window is shown: [ow = OWMean()], [d = Table('housing')],
    [ow.set_data(d)]. *)
Definition main_script (stored : option string) (housing : Table) : OWMean :=
  exec (set_data (Some housing)) (OWMean_init stored).

(** ** Further observations *)

(** Whether a sent value is an instance of a port's class; [None] may
    be sent on any port. *)
Definition conforms (v : value) (ty : SignalType) : bool :=
  match v, ty with
  | VNone, _ => true
  | VLearner _, MeanLearnerT => true
  | VModel _, MeanModelT => true
  | _, _ => false
  end.

(** While the widget holds a table, what it last published is what the
    last published learner makes of that table, and error 0 says so. *)
Definition outputs_in_sync (self : OWMean) : Prop :=
  ∀ d, data self = Some d →
    ∃ l, last_sent "Learner" (sent self) = Some (VLearner l) ∧
         last_sent "Predictor" (sent self) =
           Some (if check_learner_adequacy l (domain d)
                 then VModel (fitted l d) else VNone) ∧
         widget_errors self !! 0%Z =
           (if check_learner_adequacy l (domain d)
            then None else Some (learner_adequacy_err_msg l)).

(** The library does not look at the identity of a learner object:
    two learners with the same attributes check, complain and fit
    alike. *)
Definition identity_blind : Prop :=
  ∀ l l' : Learner,
    lpreprocessors l = lpreprocessors l' → lname l = lname l' →
    (∀ dom, check_learner_adequacy l dom = check_learner_adequacy l' dom) ∧
    learner_adequacy_err_msg l = learner_adequacy_err_msg l' ∧
    (∀ d, learner_call l d = learner_call l' d).

End Widget.

(* ------------------------------------------------------------------ *)
(** * A small instance of the library *)
(* ------------------------------------------------------------------ *)

Module Housing.

(** Modelled from the spec: [Orange.data] and [Orange.regression.mean]
    are not part of the widget's file.  A table is its domain (whether
    the class variable is continuous) and its class column; a learner is
    adequate for a domain with a continuous class; the fitted model
    keeps the class column it averages. *)
Record table : Type := mkTable {
  has_continuous_class : bool;
  class_column : list Z
}.

#[export] Instance orange : Orange := {|
  Table := table;
  Domain := bool;
  Preprocess := unit;
  Fit := list Z;
  domain := has_continuous_class;
  default_learner_name := "mean";
  check_learner_adequacy := λ _ dom, dom;
  learner_adequacy_err_msg := λ _, "continuous class variable expected";
  learner_call := λ l d, mkModel "mean" (class_column d)
|}.

Definition housing : Table := mkTable true [24; 21; 34]%Z.
Definition iris : Table := mkTable false [0; 1; 2]%Z.

End Housing.

(* ------------------------------------------------------------------ *)
(** * What one call does *)
(* ------------------------------------------------------------------ *)

Section Calls.
Context `{O : Orange}.
Implicit Types (self : OWMean) (d : Table) (l : Learner) (m : Model).

(** The state [apply] returns, one case per path of the source. *)
Lemma apply_exec self :
  exec apply self =
    let l := built_learner self in
    let log p := sent self ++ [("Learner", VLearner l); ("Predictor", p)] in
    let out errs p := mkOWMean (data self) (preprocessors self)
                        (learner_name self) errs (log p) (S (next_id self)) in
    match data self with
    | None => out (widget_errors self) VNone
    | Some d =>
        if check_learner_adequacy l (domain d)
        then out (delete 0%Z (widget_errors self)) (VModel (fitted l d))
        else out (<[0%Z := learner_adequacy_err_msg l]>
                    (delete 0%Z (widget_errors self))) VNone
    end.
Proof.
  unfold exec, apply, built_learner, fitted.
  cbv [mbind M_bind mret M_ret get_self LEARNER].
  destruct (data self) as [d|]; cbn.
  - destruct (check_learner_adequacy _ (domain d)); cbn;
      by rewrite <- app_assoc.
  - by rewrite <- app_assoc.
Qed.

Lemma apply_sent self :
  sent (exec apply self) =
    sent self ++ [("Learner", VLearner (built_learner self));
                  ("Predictor", applied_predictor self)].
Proof.
  rewrite apply_exec. unfold applied_predictor. cbn zeta.
  destruct (data self) as [d|]; [|done].
  by destruct (check_learner_adequacy _ (domain d)).
Qed.

Lemma apply_emitted self :
  emitted apply self =
    [("Learner", VLearner (built_learner self));
     ("Predictor", applied_predictor self)].
Proof. unfold emitted. rewrite apply_sent. apply drop_app_length. Qed.

Lemma apply_data self : data (exec apply self) = data self.
Proof.
  rewrite apply_exec. cbn zeta.
  destruct (data self) as [d|] eqn:E; [|done].
  by destruct (check_learner_adequacy _ (domain d)).
Qed.

Lemma apply_next_id self : next_id (exec apply self) = S (next_id self).
Proof.
  rewrite apply_exec. cbn zeta.
  destruct (data self) as [d|]; [|done].
  by destruct (check_learner_adequacy _ (domain d)).
Qed.

Lemma last_sent_app channel (a b : list (string * value)) :
  last_sent channel (a ++ b) =
    match last_sent channel b with
    | Some w => Some w
    | None => last_sent channel a
    end.
Proof.
  induction a as [|[c v] a IH]; cbn.
  - by destruct (last_sent channel b).
  - rewrite IH. destruct (last_sent channel b); [done|].
    by destruct (last_sent channel a).
Qed.

Lemma apply_last_learner self :
  last_sent "Learner" (sent (exec apply self)) =
    Some (VLearner (built_learner self)).
Proof. by rewrite apply_sent, last_sent_app. Qed.

Lemma apply_last_predictor self :
  last_sent "Predictor" (sent (exec apply self)) =
    Some (applied_predictor self).
Proof. by rewrite apply_sent, last_sent_app. Qed.

Lemma learner_ids_app (a b : list (string * value)) :
  learner_ids (a ++ b) = learner_ids a ++ learner_ids b.
Proof.
  induction a as [|[c v] a IH]; [done|].
  destruct v; cbn; by rewrite IH.
Qed.

Lemma applied_predictor_ids self c :
  learner_ids [(c, applied_predictor self)] = [].
Proof.
  unfold applied_predictor. destruct (data self) as [d|]; [|done].
  by destruct (check_learner_adequacy _ (domain d)).
Qed.

Lemma ids_fresh_Forall self :
  ids_fresh self = true ↔
  Forall (λ i, i < next_id self) (learner_ids (sent self)).
Proof.
  unfold ids_fresh. induction (learner_ids (sent self)) as [|i ids IH]; cbn.
  - split; [constructor|done].
  - rewrite andb_true_iff, bool_decide_eq_true, IH, Forall_cons. done.
Qed.

Lemma ids_fresh_elem self c l :
  ids_fresh self = true → (c, VLearner l) ∈ sent self → lid l < next_id self.
Proof.
  rewrite ids_fresh_Forall, Forall_forall. intros Hall Hin. apply Hall.
  clear Hall. induction (sent self) as [|[c' v] log IH].
  - by apply elem_of_nil in Hin.
  - apply elem_of_cons in Hin as [Heq|Hin].
    + injection Heq as -> <-. cbn. left.
    + destruct v; cbn; [|right|]; by apply IH.
Qed.

Lemma apply_ids_fresh self :
  ids_fresh self = true → ids_fresh (exec apply self) = true.
Proof.
  rewrite !ids_fresh_Forall, apply_next_id, apply_sent.
  intros Hall.
  change [("Learner", VLearner (built_learner self));
          ("Predictor", applied_predictor self)]
    with ([("Learner", VLearner (built_learner self))] ++
          [("Predictor", applied_predictor self)]).
  rewrite !learner_ids_app, applied_predictor_ids, app_nil_r. cbn.
  apply Forall_app. split.
  - eapply Forall_impl; [exact Hall|]. cbn. lia.
  - repeat constructor.
Qed.

Lemma handle_ids_fresh e self :
  ids_fresh self = true → ids_fresh (exec (handle e) self) = true.
Proof.
  destruct e as [[d|]| |v]; cbn; try done.
  - intros H. by apply (apply_ids_fresh (exec (assign_data (Some d)) self)).
  - apply apply_ids_fresh.
Qed.

Lemma run_ids_fresh es self :
  ids_fresh self = true → ids_fresh (run es self) = true.
Proof.
  revert self. induction es as [|e es IH]; intros self H; [done|].
  cbn. by apply IH, handle_ids_fresh.
Qed.

Lemma reachable_ids_fresh self : reachable self → ids_fresh self = true.
Proof.
  intros (stored & es & ->). apply run_ids_fresh.
  unfold OWMean_init. by apply apply_ids_fresh.
Qed.

End Calls.

(* ------------------------------------------------------------------ *)
(** * Properties of [apply] *)
(* ------------------------------------------------------------------ *)

Section Apply.
Context `{O : Orange}.
Implicit Types (self : OWMean) (d : Table) (l : Learner) (m : Model).

(** C1. When [apply] runs with a table whose domain the learner's
    adequacy check rejects, the panel carries error 0 with the learner's
    message afterwards, and the value sent on "Predictor" is [None]. *)
Theorem apply_inadequate_data_raises_error self d :
  data self = Some d →
  check_learner_adequacy (built_learner self) (domain d) = false →
  widget_errors (exec apply self) !! 0%Z =
    Some (learner_adequacy_err_msg (built_learner self)) ∧
  emitted apply self =
    [("Learner", VLearner (built_learner self)); ("Predictor", VNone)] ∧
  last_sent "Predictor" (sent (exec apply self)) = Some VNone.
Proof.
  intros Hdata Hcheck.
  assert (applied_predictor self = VNone) as Hp.
  { unfold applied_predictor. by rewrite Hdata, Hcheck. }
  split_and!.
  - rewrite apply_exec. cbn zeta. rewrite Hdata, Hcheck. cbn.
    apply lookup_insert_eq.
  - by rewrite apply_emitted, Hp.
  - by rewrite apply_last_predictor, Hp.
Qed.

(** C2. Every [apply] sends the learner it has just constructed on
    "Learner": with no data, with inadequate data and with adequate
    data alike.  The learner carries the identity allocated by this
    call. *)
Theorem apply_always_sends_learner self :
  ("Learner", VLearner (built_learner self)) ∈ emitted apply self ∧
  last_sent "Learner" (sent (exec apply self)) =
    Some (VLearner (built_learner self)) ∧
  built_learner self =
    set_lname (LEARNER (preprocessors self) self).1 (learner_name self) ∧
  lid (built_learner self) = next_id self ∧
  next_id (exec apply self) = S (next_id self).
Proof.
  split_and!.
  - rewrite apply_emitted. left.
  - apply apply_last_learner.
  - done.
  - done.
  - apply apply_next_id.
Qed.

(** C4. When [apply] runs with a table whose domain the adequacy check
    accepts, the value sent on "Predictor" is the model [learner(data)]
    returned for the learner built by this call, carrying the learner's
    name. *)
Theorem apply_adequate_data_sends_predictor self d :
  data self = Some d →
  check_learner_adequacy (built_learner self) (domain d) = true →
  let predictor := learner_call (built_learner self) d in
  emitted apply self =
    [("Learner", VLearner (built_learner self));
     ("Predictor", VModel (set_mname predictor (lname (built_learner self))))] ∧
  last_sent "Predictor" (sent (exec apply self)) =
    Some (VModel (set_mname predictor (lname (built_learner self)))) ∧
  mfit (set_mname predictor (lname (built_learner self))) = mfit predictor.
Proof.
  intros Hdata Hcheck predictor.
  assert (applied_predictor self = VModel (fitted (built_learner self) d)) as Hp.
  { unfold applied_predictor. by rewrite Hdata, Hcheck. }
  split_and!.
  - by rewrite apply_emitted, Hp.
  - by rewrite apply_last_predictor, Hp.
  - done.
Qed.

(** C5. The learner is rebuilt by every [apply]: the learner sent is a
    new [MeanLearner] made from the current [self.preprocessors] and
    named by the current [learner_name]; it is none of the learners sent
    before, and the next [apply] will build yet another one. *)
Theorem apply_builds_new_learner self :
  ids_fresh self = true →
  built_learner self =
    mkLearner (next_id self) (preprocessors self) (learner_name self) ∧
  last_sent "Learner" (sent (exec apply self)) =
    Some (VLearner (built_learner self)) ∧
  (∀ c l, (c, VLearner l) ∈ sent self → l ≠ built_learner self) ∧
  built_learner (exec apply self) ≠ built_learner self ∧
  ids_fresh (exec apply self) = true.
Proof.
  intros Hfresh. split_and!.
  - done.
  - apply apply_last_learner.
  - intros c l Hin ->. apply (ids_fresh_elem _ _ _ Hfresh) in Hin.
    cbn in Hin. lia.
  - intros Heq. apply (f_equal lid) in Heq. cbn in Heq.
    rewrite apply_next_id in Heq. lia.
  - by apply apply_ids_fresh.
Qed.

(** C6. Every [apply] sends exactly two messages, first on "Learner"
    and then on "Predictor".  With data present it validates the domain:
    error 0 is cleared and the model sent when the check accepts, error 0
    is set and [None] sent when it rejects.  With no data the panel's
    errors are left as they were and [None] is sent. *)
Theorem apply_sends_learner_then_predictor self :
  ∃ p,
    emitted apply self =
      [("Learner", VLearner (built_learner self)); ("Predictor", p)] ∧
    length (sent (exec apply self)) = length (sent self) + 2 ∧
    match data self with
    | Some d =>
        if check_learner_adequacy (built_learner self) (domain d)
        then p = VModel (fitted (built_learner self) d) ∧
             widget_errors (exec apply self) !! 0%Z = None
        else p = VNone ∧
             widget_errors (exec apply self) !! 0%Z =
               Some (learner_adequacy_err_msg (built_learner self))
    | None => p = VNone ∧ widget_errors (exec apply self) = widget_errors self
    end.
Proof.
  exists (applied_predictor self). split_and!.
  - apply apply_emitted.
  - rewrite apply_sent, length_app. done.
  - rewrite apply_exec. unfold applied_predictor. cbn zeta.
    destruct (data self) as [d|]; [|done].
    destruct (check_learner_adequacy _ (domain d)); cbn.
    + split; [done|]. apply lookup_delete_eq.
    + split; [done|]. apply lookup_insert_eq.
Qed.

(** C9. When [apply] sends a predictor that is not [None], its name is
    the name of the learner sent by the same call, which is the current
    [learner_name]. *)
Theorem predictor_named_after_learner self m :
  ("Predictor", VModel m) ∈ emitted apply self →
  ∃ l, ("Learner", VLearner l) ∈ emitted apply self ∧
       mname m = lname l ∧
       lname l = learner_name self.
Proof.
  rewrite apply_emitted. intros Hin.
  exists (built_learner self). split; [left|]. split; [|done].
  apply elem_of_cons in Hin as [Heq|Hin]; [done|].
  apply list_elem_of_singleton in Hin. injection Hin as Hm.
  unfold applied_predictor in Hm.
  destruct (data self) as [d|]; [|done].
  destruct (check_learner_adequacy _ (domain d)); [|done].
  injection Hm as ->. done.
Qed.

End Apply.

(* ------------------------------------------------------------------ *)
(** * Properties of [set_data], [__init__] and histories *)
(* ------------------------------------------------------------------ *)

Section Histories.
Context `{O : Orange}.
Implicit Types (self : OWMean) (d : Table) (l : Learner) (m : Model).

Lemma apply_justified self : predictor_justified (exec apply self).
Proof.
  intros m. rewrite apply_last_predictor, apply_last_learner, apply_data.
  unfold applied_predictor. intros Hm.
  destruct (data self) as [d|]; [|done].
  destruct (check_learner_adequacy _ (domain d)) eqn:Hcheck; [|done].
  injection Hm as <-. exists (built_learner self), d. auto.
Qed.

Lemma handle_justified e self :
  predictor_justified self → predictor_justified (exec (handle e) self).
Proof.
  intros Hself. destruct e as [[d|]| |v].
  - apply (apply_justified (exec (assign_data (Some d)) self)).
  - intros m Hm. destruct (Hself m Hm) as (l & d & Hl & Hc & -> & _).
    exists l, d. auto.
  - apply apply_justified.
  - exact Hself.
Qed.

Lemma run_justified es self :
  predictor_justified self → predictor_justified (run es self).
Proof.
  revert self. induction es as [|e es IH]; intros self H; [done|].
  cbn. by apply IH, handle_justified.
Qed.

(** C3, amended.  In every state reached from a constructed widget by
    [set_data] and [apply] calls (and edits of the name), a predictor
    last published on "Predictor" that is not [None] was fitted on a
    table accepted by the adequacy check of the learner last published;
    [self.data] is that table, or [None] when the data has been removed
    since. *)
Theorem published_predictor_was_adequate self m :
  reachable self →
  last_sent "Predictor" (sent self) = Some (VModel m) →
  ∃ l d, last_sent "Learner" (sent self) = Some (VLearner l) ∧
         check_learner_adequacy l (domain d) = true ∧
         m = fitted l d ∧
         (data self = Some d ∨ data self = None).
Proof.
  intros (stored & es & ->). revert m.
  apply run_justified, apply_justified.
Qed.

(** C8. [set_data(None)] stores [None] in [self.data] and sends
    nothing, so the value last published on every output is what it was;
    [set_data] with a table stores it and then runs [apply], and a
    [set_data] that sends anything was given a table. *)
Theorem set_data_none_keeps_outputs self :
  data (exec (set_data None) self) = None ∧
  emitted (set_data None) self = [] ∧
  sent (exec (set_data None) self) = sent self ∧
  (∀ channel, last_sent channel (sent (exec (set_data None) self)) =
              last_sent channel (sent self)) ∧
  (∀ d, exec (set_data (Some d)) self =
        exec apply (exec (assign_data (Some d)) self)) ∧
  (∀ od, emitted (set_data od) self ≠ [] → od ≠ None).
Proof.
  assert (emitted (set_data None) self = []) as Hnone.
  { unfold emitted. cbn. by rewrite drop_all. }
  split_and!; try done.
  intros od Hsent ->. by apply Hsent.
Qed.

(** C10. [__init__] runs [apply] once, on a widget whose [data] and
    [preprocessors] are [None]; the constructed widget has sent a
    learner on "Learner" and then [None] on "Predictor", and nothing
    else. *)
Theorem init_sends_learner_and_no_predictor stored :
  OWMean_init stored = exec apply (blank stored) ∧
  data (blank stored) = None ∧
  preprocessors (blank stored) = None ∧
  sent (blank stored) = [] ∧
  sent (OWMean_init stored) =
    [("Learner", VLearner (mkLearner 0 None (Setting "Mean Learner" stored)));
     ("Predictor", VNone)] ∧
  data (OWMean_init stored) = None.
Proof. by split_and!. Qed.

End Histories.

(* ------------------------------------------------------------------ *)
(** * The declared ports *)
(* ------------------------------------------------------------------ *)

(** C7. The widget's class body declares one input, "Data", of type
    [Table] and handled by [set_data], and exactly two outputs,
    "Learner" of type [MeanLearner] and "Predictor" of type [MeanModel].
    Every entry of [inputs] other than "Data" comes from the list
    inherited from [OWProvidesLearner]. *)
Theorem declared_ports (OWProvidesLearner_inputs : list InputPort) :
  own_inputs = [("Data", TableT, "set_data")] ∧
  inputs OWProvidesLearner_inputs =
    ("Data", TableT, "set_data") :: OWProvidesLearner_inputs ∧
  (∀ p, p ∈ inputs OWProvidesLearner_inputs →
        p = ("Data", TableT, "set_data") ∨ p ∈ OWProvidesLearner_inputs) ∧
  outputs = [("Learner", MeanLearnerT); ("Predictor", MeanModelT)] ∧
  length outputs = 2.
Proof.
  split_and!; try done.
  intros p Hin. by apply elem_of_cons in Hin.
Qed.

(* ------------------------------------------------------------------ *)
(** * The widget run on the small instance *)
(* ------------------------------------------------------------------ *)

Section Runs.
Import Housing.

(** A constructed widget that has received the table [iris], whose
    class is not continuous. *)
Lemma apply_inadequate_data_raises_error_run :
  let self := run [SetData (Some iris)] (OWMean_init None) in
  data self = Some iris ∧
  check_learner_adequacy (built_learner self) (domain iris) = false ∧
  widget_errors (exec apply self) !! 0%Z =
    Some "continuous class variable expected" ∧
  emitted apply self =
    [("Learner", VLearner (mkLearner 2 None "Mean Learner"));
     ("Predictor", VNone)].
Proof.
  cbv zeta.
  destruct (apply_inadequate_data_raises_error
              (run [SetData (Some iris)] (OWMean_init None)) iris)
    as (Herr & Hsent & _); [reflexivity|reflexivity|].
  split_and!; [reflexivity|reflexivity|exact Herr|exact Hsent].
Defined.

(** A constructed widget that holds the table [housing], whose class is
    continuous. *)
Lemma apply_adequate_data_sends_predictor_run :
  let self := run [SetData (Some housing)] (OWMean_init (Some "avg")) in
  data self = Some housing ∧
  check_learner_adequacy (built_learner self) (domain housing) = true ∧
  last_sent "Predictor" (sent (exec apply self)) =
    Some (VModel (mkModel "avg" [24; 21; 34]%Z)).
Proof.
  cbv zeta.
  destruct (apply_adequate_data_sends_predictor
              (run [SetData (Some housing)] (OWMean_init (Some "avg"))) housing)
    as (_ & Hlast & _); [reflexivity|reflexivity|].
  split_and!; [reflexivity|reflexivity|exact Hlast].
Defined.

(** Pressing "Apply" a third time builds a third learner. *)
Lemma apply_builds_new_learner_run :
  let self := run [Apply; EditName "baseline"] (OWMean_init None) in
  ids_fresh self = true ∧
  built_learner self = mkLearner 2 None "baseline" ∧
  built_learner (exec apply self) ≠ built_learner self.
Proof.
  cbv zeta.
  destruct (apply_builds_new_learner
              (run [Apply; EditName "baseline"] (OWMean_init None)))
    as (Hl & _ & _ & Hnext & _); [reflexivity|].
  split_and!; [reflexivity|exact Hl|exact Hnext].
Defined.

(** The model fitted on [housing] is named as the learner is. *)
Lemma predictor_named_after_learner_run :
  let self := run [EditName "baseline"; SetData (Some housing)] (OWMean_init None) in
  let m := mkModel "baseline" [24; 21; 34]%Z in
  ("Predictor", VModel m) ∈ emitted apply self ∧
  ∃ l, ("Learner", VLearner l) ∈ emitted apply self ∧
       mname m = lname l ∧ lname l = learner_name self.
Proof.
  cbv zeta.
  assert (("Predictor", VModel (mkModel "baseline" [24; 21; 34]%Z)) ∈
          emitted apply
            (run [EditName "baseline"; SetData (Some housing)] (OWMean_init None)))
    as Hin by (right; left).
  split; [exact Hin|].
  exact (predictor_named_after_learner _ _ Hin).
Defined.

(** After [housing] has arrived, the published predictor is the one
    fitted on it. *)
Lemma published_predictor_was_adequate_run :
  let self := run [SetData (Some iris); SetData (Some housing)] (OWMean_init None) in
  let m := mkModel "Mean Learner" [24; 21; 34]%Z in
  reachable self ∧
  last_sent "Predictor" (sent self) = Some (VModel m) ∧
  ∃ l d, last_sent "Learner" (sent self) = Some (VLearner l) ∧
         check_learner_adequacy l (domain d) = true ∧
         m = fitted l d ∧
         (data self = Some d ∨ data self = None).
Proof.
  cbv zeta.
  assert (reachable
            (run [SetData (Some iris); SetData (Some housing)] (OWMean_init None)))
    as Hreach by (exists None, [SetData (Some iris); SetData (Some housing)];
                  reflexivity).
  split; [exact Hreach|]. split; [reflexivity|].
  apply (published_predictor_was_adequate _ _ Hreach). reflexivity.
Defined.

(** C3 as stated fails: the table [housing] arrives and a predictor is
    published; the data is then removed with [set_data(None)], which
    sends nothing, so the predictor stays published while [self.data] is
    [None]. *)
Lemma stale_predictor_after_data_removed :
  let es := [SetData (Some housing); SetData None] in
  let self := run es (OWMean_init None) in
  calls_only es = true ∧
  reachable self ∧
  last_sent "Predictor" (sent self) =
    Some (VModel (mkModel "Mean Learner" [24; 21; 34]%Z)) ∧
  data self = None ∧
  ¬ (∀ m, last_sent "Predictor" (sent self) = Some (VModel m) →
          ∃ d l, data self = Some d ∧
                 check_learner_adequacy l (domain d) = true).
Proof.
  cbv zeta. split_and!; try reflexivity.
  - by exists None, [SetData (Some housing); SetData None].
  - intros H. destruct (H _ eq_refl) as (d & l & Hdata & _). discriminate Hdata.
Qed.

End Runs.

(* ------------------------------------------------------------------ *)
(** * Further properties: what the calls leave alone *)
(* ------------------------------------------------------------------ *)

Section Frames.
Context `{O : Orange}.
Implicit Types (self : OWMean) (d : Table) (l : Learner) (m : Model).

Lemma apply_errors self :
  widget_errors (exec apply self) =
    match data self with
    | None => widget_errors self
    | Some d =>
        if check_learner_adequacy (built_learner self) (domain d)
        then delete 0%Z (widget_errors self)
        else <[0%Z := learner_adequacy_err_msg (built_learner self)]>
               (delete 0%Z (widget_errors self))
    end.
Proof.
  rewrite apply_exec. cbn zeta.
  destruct (data self) as [d|]; [|done].
  by destruct (check_learner_adequacy _ (domain d)).
Qed.

Lemma apply_preprocessors self :
  preprocessors (exec apply self) = preprocessors self.
Proof.
  rewrite apply_exec. cbn zeta. destruct (data self) as [d|]; [|done].
  by destruct (check_learner_adequacy _ (domain d)).
Qed.

Lemma apply_learner_name self :
  learner_name (exec apply self) = learner_name self.
Proof.
  rewrite apply_exec. cbn zeta. destruct (data self) as [d|]; [|done].
  by destruct (check_learner_adequacy _ (domain d)).
Qed.

(** X1. [apply] assigns none of the widget's attributes and touches no
    error annotation other than the one with id 0. *)
Theorem apply_keeps_attributes_and_other_errors self :
  data (exec apply self) = data self ∧
  preprocessors (exec apply self) = preprocessors self ∧
  learner_name (exec apply self) = learner_name self ∧
  (∀ id, id ≠ 0%Z →
     widget_errors (exec apply self) !! id = widget_errors self !! id).
Proof.
  split_and!.
  - apply apply_data.
  - apply apply_preprocessors.
  - apply apply_learner_name.
  - intros id Hid. rewrite apply_errors.
    destruct (data self) as [d|]; [|done].
    destruct (check_learner_adequacy _ (domain d)).
    + by rewrite lookup_delete_ne.
    + by rewrite lookup_insert_ne, lookup_delete_ne.
Qed.

(** X2. The error annotation outlives the table that caused it: after a
    table the learner rejects has arrived and has been removed again with
    [set_data(None)], the panel still shows error 0, and pressing "Apply"
    with no data does not clear it. *)
Theorem error_outlives_removed_data self d :
  check_learner_adequacy (built_learner self) (domain d) = false →
  let gone := exec (set_data None) (exec (set_data (Some d)) self) in
  data gone = None ∧
  widget_errors gone !! 0%Z =
    Some (learner_adequacy_err_msg (built_learner self)) ∧
  widget_errors (exec apply gone) !! 0%Z =
    Some (learner_adequacy_err_msg (built_learner self)).
Proof.
  intros Hcheck gone.
  assert (widget_errors gone !! 0%Z =
            Some (learner_adequacy_err_msg (built_learner self))) as Herr.
  { subst gone.
    change (widget_errors (exec apply (exec (assign_data (Some d)) self)) !! 0%Z
            = Some (learner_adequacy_err_msg (built_learner self))).
    rewrite apply_errors.
    change (data (exec (assign_data (Some d)) self)) with (Some d).
    change (built_learner (exec (assign_data (Some d)) self))
      with (built_learner self).
    cbv beta iota. rewrite Hcheck. apply lookup_insert_eq. }
  split_and!; [done|exact Herr|].
  rewrite apply_errors. by replace (data gone) with (@None Table).
Qed.

End Frames.

(* ------------------------------------------------------------------ *)
(** * Further properties: invariants of histories *)
(* ------------------------------------------------------------------ *)

Section Invariants.
Context `{O : Orange}.
Implicit Types (self : OWMean) (d : Table) (l : Learner) (m : Model).

(** A property of the constructed widget that every event preserves
    holds in every reachable state. *)
Lemma reachable_invariant (P : OWMean → Prop) :
  (∀ stored, P (OWMean_init stored)) →
  (∀ e self, P self → P (exec (handle e) self)) →
  ∀ self, reachable self → P self.
Proof.
  intros Hinit Hstep self (stored & es & ->).
  generalize (OWMean_init stored) (Hinit stored). clear Hinit stored.
  induction es as [|e es IH]; intros self H; [done|].
  cbn. by apply IH, Hstep.
Qed.

Lemma apply_in_sync self : outputs_in_sync (exec apply self).
Proof.
  intros d Hd. rewrite apply_data in Hd. exists (built_learner self).
  rewrite apply_last_learner, apply_last_predictor, apply_errors.
  unfold applied_predictor. rewrite Hd.
  destruct (check_learner_adequacy _ (domain d)); split_and!; try done.
  - apply lookup_delete_eq.
  - apply lookup_insert_eq.
Qed.

(** X3. While a reachable widget holds a table, its outputs agree with
    it: the predictor last published is the model the last published
    learner fits on that table when the learner accepts its domain, and
    [None] otherwise; error 0 is set, with that learner's message,
    exactly in the second case. *)
Theorem held_data_matches_outputs self d :
  reachable self →
  data self = Some d →
  ∃ l, last_sent "Learner" (sent self) = Some (VLearner l) ∧
       last_sent "Predictor" (sent self) =
         Some (if check_learner_adequacy l (domain d)
               then VModel (fitted l d) else VNone) ∧
       widget_errors self !! 0%Z =
         (if check_learner_adequacy l (domain d)
          then None else Some (learner_adequacy_err_msg l)).
Proof.
  intros Hreach. revert d.
  change (outputs_in_sync self). revert self Hreach.
  apply reachable_invariant.
  - intros stored. apply apply_in_sync.
  - intros [[d|]| |v] self Hself.
    + apply (apply_in_sync (exec (assign_data (Some d)) self)).
    + intros d Hd. discriminate Hd.
    + apply apply_in_sync.
    + exact Hself.
Qed.

(** X4. A reachable widget has only ever sent on its declared outputs,
    and what it sent on an output was [None] or an instance of the
    class declared for that output. *)
Theorem sent_values_match_declared_outputs self c v :
  reachable self →
  (c, v) ∈ sent self →
  ∃ ty, (c, ty) ∈ outputs ∧ conforms v ty = true.
Proof.
  intros Hreach. revert c v.
  cut (Forall (λ msg, ∃ ty, (msg.1, ty) ∈ outputs ∧ conforms msg.2 ty = true)
         (sent self)).
  { rewrite Forall_forall. intros Hall c v Hin. apply (Hall (c, v) Hin). }
  revert self Hreach.
  assert (∀ self,
            Forall (λ msg, ∃ ty, (msg.1, ty) ∈ outputs ∧ conforms msg.2 ty = true)
              (sent self) →
            Forall (λ msg, ∃ ty, (msg.1, ty) ∈ outputs ∧ conforms msg.2 ty = true)
              (sent (exec apply self))) as Happly.
  { intros self Hall. rewrite apply_sent. apply Forall_app. split; [done|].
    constructor; [|constructor; [|constructor]].
    - exists MeanLearnerT. split; [left|done].
    - exists MeanModelT. split; [right; left|]. cbn.
      unfold applied_predictor. destruct (data self) as [d|]; [|done].
      by destruct (check_learner_adequacy _ (domain d)). }
  apply reachable_invariant.
  - intros stored. apply Happly. constructor.
  - intros [[d|]| |v] self Hself; [|done| |done].
    + apply (Happly (exec (assign_data (Some d)) self)), Hself.
    + by apply Happly.
Qed.

(** X5. The learners a reachable widget has sent are pairwise distinct
    objects: the k-th learner sent has identity k, and the widget has
    sent as many learners as it has built. *)
Theorem sent_learners_are_distinct self :
  reachable self →
  learner_ids (sent self) = seq 0 (next_id self) ∧
  NoDup (learner_ids (sent self)) ∧
  0 < next_id self.
Proof.
  intros Hreach.
  cut (learner_ids (sent self) = seq 0 (next_id self) ∧ 0 < next_id self).
  { intros [-> ?]. split_and!; [done|apply NoDup_seq|done]. }
  revert self Hreach.
  assert (∀ self,
            learner_ids (sent self) = seq 0 (next_id self) →
            learner_ids (sent (exec apply self)) = seq 0 (next_id (exec apply self)) ∧
            0 < next_id (exec apply self)) as Happly.
  { intros self Hids. rewrite apply_next_id, apply_sent. split; [|lia].
    change [("Learner", VLearner (built_learner self));
            ("Predictor", applied_predictor self)]
      with ([("Learner", VLearner (built_learner self))] ++
            [("Predictor", applied_predictor self)]).
    rewrite !learner_ids_app, applied_predictor_ids, app_nil_r, Hids.
    by rewrite seq_S. }
  apply reachable_invariant.
  - intros stored. by apply Happly.
  - intros [[d|]| |v] self [Hids Hpos]; [|done| |done].
    + by apply (Happly (exec (assign_data (Some d)) self)).
    + by apply Happly.
Qed.

(** X6. The messages of a reachable widget come in pairs, "Learner"
    then "Predictor", one pair for each learner built; no message on one
    output is ever sent without the other. *)
Theorem sent_messages_come_in_pairs self :
  reachable self →
  (sent self).*1 = concat (replicate (next_id self) ["Learner"; "Predictor"]) ∧
  length (sent self) = 2 * next_id self.
Proof.
  intros Hreach.
  cut ((sent self).*1 =
         concat (replicate (next_id self) ["Learner"; "Predictor"])).
  { intros Hch. split; [done|].
    rewrite <- (length_fmap fst), Hch. clear.
    induction (next_id self) as [|n IH]; [done|]. cbn. lia. }
  revert self Hreach.
  assert (∀ self,
            (sent self).*1 =
              concat (replicate (next_id self) ["Learner"; "Predictor"]) →
            (sent (exec apply self)).*1 =
              concat (replicate (next_id (exec apply self))
                        ["Learner"; "Predictor"])) as Happly.
  { intros self Hch.
    rewrite apply_next_id, apply_sent, fmap_app, Hch, replicate_S_end,
      concat_app. cbn. done. }
  apply reachable_invariant.
  - intros stored. by apply Happly.
  - intros [[d|]| |v] self Hself; [|done| |done].
    + by apply (Happly (exec (assign_data (Some d)) self)).
    + by apply Happly.
Qed.

End Invariants.

(* ------------------------------------------------------------------ *)
(** * Further properties: names, repeated [apply], the script *)
(* ------------------------------------------------------------------ *)

Section Compositions.
Context `{O : Orange}.
Implicit Types (self : OWMean) (d : Table) (l : Learner) (m : Model).

Lemma run_calls_only_name es self :
  calls_only es = true →
  (∃ l, last_sent "Learner" (sent self) = Some (VLearner l) ∧
        lname l = learner_name self) →
  ∃ l, last_sent "Learner" (sent (run es self)) = Some (VLearner l) ∧
       lname l = learner_name (run es self).
Proof.
  assert (∀ self, ∃ l,
            last_sent "Learner" (sent (exec apply self)) = Some (VLearner l) ∧
            lname l = learner_name (exec apply self)) as Happly.
  { intros s. exists (built_learner s).
    by rewrite apply_last_learner, apply_learner_name. }
  revert self. induction es as [|e es IH]; intros self Hes Hself; [done|].
  cbn in Hes. apply andb_true_iff in Hes as [He Hes].
  cbn. apply IH; [done|].
  destruct e as [[d|]| |v]; [| done | | done].
  - apply (Happly (exec (assign_data (Some d)) self)).
  - apply Happly.
Qed.

(** X7. As long as the name is not edited, the report of a widget
    driven by [set_data] and [apply] calls names the learner it last
    published, and the predictor it last published if there is one. *)
Theorem report_names_published_objects stored es :
  calls_only es = true →
  let self := run es (OWMean_init stored) in
  ∃ l, last_sent "Learner" (sent self) = Some (VLearner l) ∧
       send_report self = [("Name", lname l)] ∧
       (∀ m, last_sent "Predictor" (sent self) = Some (VModel m) →
             send_report self = [("Name", mname m)]).
Proof.
  intros Hes self.
  destruct (run_calls_only_name es (OWMean_init stored) Hes) as (l & Hl & Hname).
  { exists (built_learner (blank stored)). split; [|done].
    apply apply_last_learner. }
  exists l. fold self in Hl, Hname. split_and!; [done|by unfold send_report; rewrite Hname|].
  intros m Hm.
  destruct (run_justified es (OWMean_init stored) (apply_justified _) m Hm)
    as (l' & d & Hl' & _ & -> & _).
  fold self in Hl'. rewrite Hl in Hl'. injection Hl' as <-.
  unfold send_report. by rewrite <- Hname.
Qed.

(** X8. When the library does not look at object identity, pressing
    "Apply" again changes nothing but the identity of the learner: the
    second [apply] leaves the same error annotations, publishes the same
    predictor, and publishes a learner with the same attributes. *)
Theorem apply_twice_republishes self :
  identity_blind →
  widget_errors (exec apply (exec apply self)) = widget_errors (exec apply self) ∧
  last_sent "Predictor" (sent (exec apply (exec apply self))) =
    last_sent "Predictor" (sent (exec apply self)) ∧
  ∃ l l', last_sent "Learner" (sent (exec apply self)) = Some (VLearner l) ∧
          last_sent "Learner" (sent (exec apply (exec apply self))) =
            Some (VLearner l') ∧
          lpreprocessors l' = lpreprocessors l ∧ lname l' = lname l ∧
          lid l' = S (lid l).
Proof.
  intros Hblind.
  destruct (Hblind (built_learner (exec apply self)) (built_learner self))
    as (Hcheck & Hmsg & Hcall).
  { cbn. apply apply_preprocessors. }
  { cbn. apply apply_learner_name. }
  assert (lname (built_learner (exec apply self)) = lname (built_learner self))
    as Hname by (cbn; apply apply_learner_name).
  split_and!.
  - rewrite (apply_errors (exec apply self)), apply_data, apply_errors.
    destruct (data self) as [d|]; [|done].
    rewrite Hcheck, Hmsg.
    destruct (check_learner_adequacy _ (domain d)).
    + apply delete_delete_eq.
    + by rewrite insert_delete_eq, insert_insert_eq.
  - rewrite !apply_last_predictor. f_equal.
    unfold applied_predictor. rewrite apply_data.
    destruct (data self) as [d|]; [|done].
    rewrite Hcheck. unfold fitted. by rewrite Hcall, Hname.
  - exists (built_learner self), (built_learner (exec apply self)).
    rewrite !apply_last_learner. split_and!; try done.
    + cbn. apply apply_preprocessors.
    + cbn. by rewrite apply_next_id.
Qed.

(** X9. Running the file as a script constructs the widget and gives it
    one table: four messages are sent, by two different learners; the
    first predictor is [None], the second is the model of the table when
    the second learner accepts its domain and [None] when it does not. *)
Theorem main_script_messages stored housing :
  let name := Setting "Mean Learner" stored in
  let l := mkLearner 1 None name in
  sent (main_script stored housing) =
    [("Learner", VLearner (mkLearner 0 None name));
     ("Predictor", VNone);
     ("Learner", VLearner l);
     ("Predictor", if check_learner_adequacy l (domain housing)
                   then VModel (fitted l housing) else VNone)] ∧
  data (main_script stored housing) = Some housing.
Proof.
  intros name l. unfold main_script.
  change (exec (set_data (Some housing)) (OWMean_init stored))
    with (exec apply (exec (assign_data (Some housing)) (OWMean_init stored))).
  rewrite apply_sent, apply_data. split; [|done].
  unfold applied_predictor.
  change (data (exec (assign_data (Some housing)) (OWMean_init stored)))
    with (Some housing).
  change (built_learner (exec (assign_data (Some housing)) (OWMean_init stored)))
    with l.
  done.
Qed.

End Compositions.

(* ------------------------------------------------------------------ *)
(** * The further properties on the small instance *)
(* ------------------------------------------------------------------ *)

Section MoreRuns.
Import Housing.

(** [iris] arrives at a new widget and is removed again. *)
Lemma error_outlives_removed_data_run :
  let self := OWMean_init None in
  let gone := exec (set_data None) (exec (set_data (Some iris)) self) in
  check_learner_adequacy (built_learner self) (domain iris) = false ∧
  data gone = None ∧
  widget_errors gone !! 0%Z = Some "continuous class variable expected" ∧
  widget_errors (exec apply gone) !! 0%Z =
    Some "continuous class variable expected".
Proof.
  cbv zeta. split; [reflexivity|].
  apply (error_outlives_removed_data (OWMean_init None) iris). reflexivity.
Defined.

(** [housing] replaces [iris]: the error is gone and the predictor is
    the model of [housing]. *)
Lemma held_data_matches_outputs_run :
  let self := run [SetData (Some iris); SetData (Some housing)] (OWMean_init None) in
  reachable self ∧
  data self = Some housing ∧
  ∃ l, last_sent "Learner" (sent self) = Some (VLearner l) ∧
       last_sent "Predictor" (sent self) =
         Some (if check_learner_adequacy l (domain housing)
               then VModel (fitted l housing) else VNone) ∧
       widget_errors self !! 0%Z =
         (if check_learner_adequacy l (domain housing)
          then None else Some (learner_adequacy_err_msg l)).
Proof.
  cbv zeta.
  assert (reachable
            (run [SetData (Some iris); SetData (Some housing)] (OWMean_init None)))
    as Hreach by (exists None, [SetData (Some iris); SetData (Some housing)];
                  reflexivity).
  split; [exact Hreach|]. split; [reflexivity|].
  apply (held_data_matches_outputs _ housing Hreach). reflexivity.
Defined.

(** The model sent for [housing] goes out on "Predictor". *)
Lemma sent_values_match_declared_outputs_run :
  let self := run [SetData (Some housing)] (OWMean_init None) in
  let v := VModel (mkModel "Mean Learner" [24; 21; 34]%Z) in
  reachable self ∧
  ("Predictor", v) ∈ sent self ∧
  ∃ ty, ("Predictor", ty) ∈ outputs ∧ conforms v ty = true.
Proof.
  cbv zeta.
  assert (reachable (run [SetData (Some housing)] (OWMean_init None)))
    as Hreach by (exists None, [SetData (Some housing)]; reflexivity).
  assert (("Predictor", VModel (mkModel "Mean Learner" [24; 21; 34]%Z)) ∈
          sent (run [SetData (Some housing)] (OWMean_init None)))
    as Hin by (do 3 right; left).
  split; [exact Hreach|]. split; [exact Hin|].
  exact (sent_values_match_declared_outputs _ _ _ Hreach Hin).
Defined.

(** Three learners after construction, a table and one more "Apply". *)
Lemma sent_learners_are_distinct_run :
  let self := run [SetData (Some housing); Apply] (OWMean_init None) in
  reachable self ∧
  learner_ids (sent self) = [0; 1; 2] ∧
  NoDup (learner_ids (sent self)).
Proof.
  cbv zeta.
  assert (reachable (run [SetData (Some housing); Apply] (OWMean_init None)))
    as Hreach by (exists None, [SetData (Some housing); Apply]; reflexivity).
  destruct (sent_learners_are_distinct _ Hreach) as (Hids & Hnodup & _).
  split_and!; [exact Hreach|exact Hids|exact Hnodup].
Defined.

(** Removing the data sends nothing: two pairs, not three. *)
Lemma sent_messages_come_in_pairs_run :
  let self := run [SetData (Some iris); SetData None] (OWMean_init None) in
  reachable self ∧
  (sent self).*1 = ["Learner"; "Predictor"; "Learner"; "Predictor"] ∧
  length (sent self) = 4.
Proof.
  cbv zeta.
  assert (reachable (run [SetData (Some iris); SetData None] (OWMean_init None)))
    as Hreach by (exists None, [SetData (Some iris); SetData None]; reflexivity).
  destruct (sent_messages_come_in_pairs _ Hreach) as (Hch & Hlen).
  split_and!; [exact Hreach|exact Hch|exact Hlen].
Defined.

(** A widget restored with the name "avg" reports "avg". *)
Lemma report_names_published_objects_run :
  let es := [SetData (Some housing); Apply] in
  let self := run es (OWMean_init (Some "avg")) in
  calls_only es = true ∧
  send_report self = [("Name", "avg")] ∧
  ∃ l, last_sent "Learner" (sent self) = Some (VLearner l) ∧
       send_report self = [("Name", lname l)] ∧
       (∀ m, last_sent "Predictor" (sent self) = Some (VModel m) →
             send_report self = [("Name", mname m)]).
Proof.
  cbv zeta. split; [reflexivity|]. split; [reflexivity|].
  apply (report_names_published_objects (Some "avg")
           [SetData (Some housing); Apply]).
  reflexivity.
Defined.

(** The small instance does not look at identities. *)
Lemma apply_twice_republishes_run :
  let self := run [SetData (Some iris)] (OWMean_init None) in
  identity_blind ∧
  widget_errors (exec apply (exec apply self)) = widget_errors (exec apply self) ∧
  last_sent "Predictor" (sent (exec apply (exec apply self))) =
    last_sent "Predictor" (sent (exec apply self)).
Proof.
  cbv zeta.
  assert identity_blind as Hblind.
  { intros l l' _ _. split_and!; reflexivity. }
  destruct (apply_twice_republishes
              (run [SetData (Some iris)] (OWMean_init None)) Hblind)
    as (Herr & Hpred & _).
  split_and!; [exact Hblind|exact Herr|exact Hpred].
Defined.

End MoreRuns.
